(** * caer.color: the HLS and HSV conversion helpers (_hls.py, _hsv.py)

    A shallow embedding of the two modules.  Python objects live in a heap
    (a list indexed by location), so that the frame properties of the
    converters (the input is only read, the result is a fresh object) can be
    stated.  The native calls made through [cv.cvtColor] are recorded in a
    trace.  Errors are the Python exceptions the modules can raise. *)

From Stdlib Require Import List String Ascii Arith Lia ZArith.
Import ListNotations.
Open Scope string_scope.

(** ** Data model *)

(** Codes of the native conversion primitive ([_constants.py] and the
    codes used by [_bgr.py]). *)
Inductive code :=
| HLS2BGR | HLS2RGB | HSV2BGR | HSV2RGB
| BGR2GRAY | BGR2HSV | BGR2HLS | BGR2LAB.

(** An array-like Python object: a numpy array ([cspace = None]) or a caer
    [Tensor] carrying its colour-space tag. *)
Record Obj := mkObj {
  shape : list nat;
  pixels : list Z;
  dtype : string;
  cspace : option string
}.

Definition loc := nat.

Record St := mkSt {
  heap : list Obj;
  calls : list (code * list nat)   (* native calls, most recent last *)
}.

Inductive error :=
| ValueError (msg : string)      (* the shape error of the modules *)
| CvError (msg : string)         (* an error raised by cv2, passed through *)
| NameError.                     (* a dangling reference; never reached *)

Inductive res (A : Type) :=
| Ok (a : A)
| Err (e : error).
Arguments Ok {A} a.
Arguments Err {A} e.

(** ** A state and error monad *)

Definition M (A : Type) := St -> res A * St.

Definition ret {A} (a : A) : M A := fun s => (Ok a, s).

Definition bind {A B} (m : M A) (k : A -> M B) : M B :=
  fun s => match m s with
           | (Ok a, s') => k a s'
           | (Err e, s') => (Err e, s')
           end.

Definition raise {A} (e : error) : M A := fun s => (Err e, s).

Notation "x <- m ;; k" := (bind m (fun x => k))
  (at level 61, m at next level, right associativity).

(** Attribute access on a referenced object. *)
Definition load (l : loc) : M Obj :=
  fun s => match nth_error (heap s) l with
           | Some o => (Ok o, s)
           | None => (Err NameError, s)
           end.

(** Allocation of a new Python object. *)
Definition alloc (o : Obj) : M loc :=
  fun s => (Ok (List.length (heap s)), mkSt (heap s ++ [o])%list (calls s)).

Definition log_call (c : code) (sh : list nat) : M unit :=
  fun s => (Ok tt, mkSt (heap s) (calls s ++ [(c, sh)])%list).

(** ** Python helpers *)

Fixpoint digits_aux (fuel n : nat) (acc : string) : string :=
  match fuel with
  | O => acc
  | S f =>
      let acc' := String (ascii_of_nat (48 + n mod 10)) acc in
      if Nat.ltb n 10 then acc' else digits_aux f (n / 10) acc'
  end.

(** [str(n)] for a Python [int] [n >= 0]. *)
Definition py_str_int (n : nat) : string := digits_aux (S n) n "".

(** [xs[-1]] on a non-empty Python sequence. *)
Definition py_last (xs : list nat) : option nat :=
  match rev xs with
  | [] => None
  | x :: _ => Some x
  end.

(** [a in b] for Python strings. *)
Fixpoint py_contains (b a : string) : bool :=
  match b with
  | EmptyString => String.prefix a b
  | String _ b' => String.prefix a b || py_contains b' a
  end.

(** ** The native primitive [cv.cvtColor] *)

Section Color.

(** The colorimetric arithmetic of the native library, out of scope. *)
Variable pixel_math : code -> list nat -> list Z -> list Z.

(** Depths accepted by OpenCV's [cvtColor] for each code (the spec, section
    7: failures such as an unsupported dtype are raised by the native
    primitive and propagate unchanged). *)
Definition depth_ok (c : code) (dt : string) : bool :=
  match c with
  | BGR2GRAY => String.eqb dt "uint8" || String.eqb dt "uint16" || String.eqb dt "float32"
  | _ => String.eqb dt "uint8" || String.eqb dt "float32"
  end.

(** OpenCV asserts [!_src.empty()]. *)
Definition cv_accepts (c : code) (o : Obj) : bool :=
  negb (Nat.eqb (fold_right Nat.mul 1 (shape o)) 0) && depth_ok c (dtype o).

(** Channel count of the destination of a code. *)
Definition dst_channels (c : code) : list nat :=
  match c with
  | BGR2GRAY => []
  | _ => [3]
  end.

(** Output shape: the spatial dimensions are kept, the channel count is
    that of the destination (spec 4.2, output guarantee). *)
Definition out_shape (c : code) (sh : list nat) : list nat :=
  (firstn 2 sh ++ dst_channels c)%list.

(** [cv.cvtColor(img, code)]: reads [img], returns a new numpy array. *)
Definition cvtColor (l : loc) (c : code) : M loc :=
  o <- load l ;;
  _ <- log_call c (shape o) ;;
  if cv_accepts c o then
    alloc (mkObj (out_shape c (shape o)) (pixel_math c (shape o) (pixels o))
                 (dtype o) None)
  else raise (CvError "cvtColor: unsupported input").

(** Modelled from the spec: [adorad.to_tensor] (not in the sources), the
    factory that builds a new container from the buffer and stamps the
    colour-space label. *)
Definition to_tensor (l : loc) (cs : string) : M loc :=
  o <- load l ;;
  alloc (mkObj (shape o) (pixels o) (dtype o) (Some cs)).

(** Modelled from the spec: [_bgr.bgr2gray], [_bgr.bgr2hsv], [_bgr.bgr2hls]
    and [_bgr.bgr2lab] (not in the sources): the BGR-centric converters of
    the sibling module, used at the second hop of a chain without
    re-validation; each converts with its native code and tags the result. *)
Definition bgr2gray (l : loc) : M loc :=
  im <- cvtColor l BGR2GRAY ;; to_tensor im "gray".
Definition bgr2hsv (l : loc) : M loc :=
  im <- cvtColor l BGR2HSV ;; to_tensor im "hsv".
Definition bgr2hls (l : loc) : M loc :=
  im <- cvtColor l BGR2HLS ;; to_tensor im "hls".
Definition bgr2lab (l : loc) : M loc :=
  im <- cvtColor l BGR2LAB ;; to_tensor im "lab".

(** ** _hls.py *)

Definition _is_hls_image (img : Obj) : bool :=
  Nat.eqb (List.length (shape img)) 3 &&
  match py_last (shape img) with Some d => Nat.eqb d 3 | None => false end.

Definition hls_msg (n : nat) (dst : string) : string :=
  "Tensor of shape 3 expected. Found shape " ++ py_str_int n ++
  ". This function converts a HLS Tensor to its " ++ dst ++ " counterpart".

Definition hls2rgb (img : loc) : M loc :=
  o <- load img ;;
  if negb (_is_hls_image o) then
    raise (ValueError (hls_msg (List.length (shape o)) "RGB"))
  else
    im <- cvtColor img HLS2RGB ;;
    to_tensor im "rgb".

Definition hls2bgr (img : loc) : M loc :=
  o <- load img ;;
  if negb (_is_hls_image o) then
    raise (ValueError (hls_msg (List.length (shape o)) "BGR"))
  else
    im <- cvtColor img HLS2BGR ;;
    to_tensor im "bgr".

Definition hls2gray (img : loc) : M loc :=
  o <- load img ;;
  if negb (_is_hls_image o) then
    raise (ValueError (hls_msg (List.length (shape o)) "Grayscale"))
  else
    bgr <- hls2bgr img ;;
    im <- bgr2gray bgr ;;
    to_tensor im "gray".

Definition hls2hsv (img : loc) : M loc :=
  o <- load img ;;
  if negb (_is_hls_image o) then
    raise (ValueError (hls_msg (List.length (shape o)) "LAB"))
  else
    bgr <- hls2bgr img ;;
    im <- bgr2hsv bgr ;;
    to_tensor im "hsv".

Definition hls2lab (img : loc) : M loc :=
  o <- load img ;;
  if negb (_is_hls_image o) then
    raise (ValueError (hls_msg (List.length (shape o)) "LAB"))
  else
    bgr <- hls2bgr img ;;
    im <- bgr2lab bgr ;;
    to_tensor im "lab".

(** ** _hsv.py *)

Definition _is_hsv_image (img : Obj) : bool :=
  Nat.eqb (List.length (shape img)) 3 &&
  match py_last (shape img) with Some d => Nat.eqb d 3 | None => false end.

Definition hsv_msg (n : nat) (dst : string) : string :=
  "Tensor of shape 3 expected. Found shape " ++ py_str_int n ++
  ". This function converts a HSV Tensor to its " ++ dst ++ " counterpart".

Definition hsv2rgb (img : loc) : M loc :=
  o <- load img ;;
  if negb (_is_hsv_image o) then
    raise (ValueError (hsv_msg (List.length (shape o)) "RGB"))
  else
    im <- cvtColor img HSV2RGB ;;
    to_tensor im "rgb".

Definition hsv2bgr (img : loc) : M loc :=
  o <- load img ;;
  if negb (_is_hsv_image o) then
    raise (ValueError (hsv_msg (List.length (shape o)) "BGR"))
  else
    im <- cvtColor img HSV2BGR ;;
    to_tensor im "bgr".

Definition hsv2gray (img : loc) : M loc :=
  o <- load img ;;
  if negb (_is_hsv_image o) then
    raise (ValueError (hsv_msg (List.length (shape o)) "Grayscale"))
  else
    bgr <- hsv2bgr img ;;
    im <- bgr2gray bgr ;;
    to_tensor im "gray".

Definition hsv2hls (img : loc) : M loc :=
  o <- load img ;;
  if negb (_is_hsv_image o) then
    raise (ValueError (hsv_msg (List.length (shape o)) "HLS"))
  else
    bgr <- hsv2bgr img ;;
    im <- bgr2hls bgr ;;
    to_tensor im "hls".

Definition hsv2lab (img : loc) : M loc :=
  o <- load img ;;
  if negb (_is_hsv_image o) then
    raise (ValueError (hsv_msg (List.length (shape o)) "LAB"))
  else
    bgr <- hsv2bgr img ;;
    im <- bgr2lab bgr ;;
    to_tensor im "lab".

(** ** The ten public entry points *)

Inductive conv :=
| Hls2rgb | Hls2bgr | Hls2gray | Hls2hsv | Hls2lab
| Hsv2rgb | Hsv2bgr | Hsv2gray | Hsv2hls | Hsv2lab.

Definition run (f : conv) : loc -> M loc :=
  match f with
  | Hls2rgb => hls2rgb | Hls2bgr => hls2bgr | Hls2gray => hls2gray
  | Hls2hsv => hls2hsv | Hls2lab => hls2lab
  | Hsv2rgb => hsv2rgb | Hsv2bgr => hsv2bgr | Hsv2gray => hsv2gray
  | Hsv2hls => hsv2hls | Hsv2lab => hsv2lab
  end.

End Color.

(** Validator of the module a function belongs to. *)
Definition validator (f : conv) : Obj -> bool :=
  match f with
  | Hls2rgb | Hls2bgr | Hls2gray | Hls2hsv | Hls2lab => _is_hls_image
  | _ => _is_hsv_image
  end.

(** Destination space declared by each function's name. *)
Definition dest (f : conv) : string :=
  match f with
  | Hls2rgb | Hsv2rgb => "rgb"
  | Hls2bgr | Hsv2bgr => "bgr"
  | Hls2gray | Hsv2gray => "gray"
  | Hls2hsv => "hsv"
  | Hsv2hls => "hls"
  | Hls2lab | Hsv2lab => "lab"
  end.

(** The message raised by each function on a rejected input. *)
Definition shape_msg (f : conv) (n : nat) : string :=
  match f with
  | Hls2rgb => hls_msg n "RGB"
  | Hls2bgr => hls_msg n "BGR"
  | Hls2gray => hls_msg n "Grayscale"
  | Hls2hsv => hls_msg n "LAB"
  | Hls2lab => hls_msg n "LAB"
  | Hsv2rgb => hsv_msg n "RGB"
  | Hsv2bgr => hsv_msg n "BGR"
  | Hsv2gray => hsv_msg n "Grayscale"
  | Hsv2hls => hsv_msg n "HLS"
  | Hsv2lab => hsv_msg n "LAB"
  end.

(** ** Concrete inputs *)

(** Identity colorimetry, enough to run the wrappers. *)
Definition id_math (c : code) (sh : list nat) (p : list Z) : list Z := p.

Definition img_hls (sh : list nat) (dt : string) : Obj :=
  mkObj sh (repeat 0%Z (fold_right Nat.mul 1 sh)) dt (Some "hls").

Definition st1 (o : Obj) : St := mkSt [o] [].

Definition st_hls (sh : list nat) (dt : string) : St := st1 (img_hls sh dt).

(** ** What a call produces *)

(** [res] as an error monad on pure values. *)
Definition rbind {A B} (r : res A) (k : A -> res B) : res B :=
  match r with Ok a => k a | Err e => Err e end.

Definition tag_obj (o : Obj) (cs : string) : Obj :=
  mkObj (shape o) (pixels o) (dtype o) (Some cs).

(** What a call returned, seen by its caller: the object it refers to, or
    the exception. *)
Definition observe (p : res loc * St) : res (option Obj) :=
  match p with
  | (Ok r, s') => Ok (nth_error (heap s') r)
  | (Err e, _) => Err e
  end.

Section Denote.

Variable pm : code -> list nat -> list Z -> list Z.

Definition cv_obj (c : code) (o : Obj) : res Obj :=
  if cv_accepts c o
  then Ok (mkObj (out_shape c (shape o)) (pm c (shape o) (pixels o)) (dtype o) None)
  else Err (CvError "cvtColor: unsupported input").

(** Object produced by a direct converter, and by a chain through BGR. *)
Definition direct_obj (v : bool) (msg : string) (c : code) (cs : string) (o : Obj) :=
  if v then rbind (cv_obj c o) (fun o1 => Ok (tag_obj o1 cs))
  else Err (ValueError msg).

Definition chained_obj (v : bool) (msg : string) (c : code) (c2 : code)
    (cs : string) (o : Obj) :=
  if v then
    rbind (direct_obj true "" c "bgr" o) (fun b =>
      rbind (rbind (cv_obj c2 b) (fun o2 => Ok (tag_obj o2 cs))) (fun g =>
        Ok (tag_obj g cs)))
  else Err (ValueError msg).

Definition conv_obj (f : conv) (o : Obj) : res Obj :=
  let msg := shape_msg f (List.length (shape o)) in
  match f with
  | Hls2rgb => direct_obj (_is_hls_image o) msg HLS2RGB "rgb" o
  | Hls2bgr => direct_obj (_is_hls_image o) msg HLS2BGR "bgr" o
  | Hls2gray => chained_obj (_is_hls_image o) msg HLS2BGR BGR2GRAY "gray" o
  | Hls2hsv => chained_obj (_is_hls_image o) msg HLS2BGR BGR2HSV "hsv" o
  | Hls2lab => chained_obj (_is_hls_image o) msg HLS2BGR BGR2LAB "lab" o
  | Hsv2rgb => direct_obj (_is_hsv_image o) msg HSV2RGB "rgb" o
  | Hsv2bgr => direct_obj (_is_hsv_image o) msg HSV2BGR "bgr" o
  | Hsv2gray => chained_obj (_is_hsv_image o) msg HSV2BGR BGR2GRAY "gray" o
  | Hsv2hls => chained_obj (_is_hsv_image o) msg HSV2BGR BGR2HLS "hls" o
  | Hsv2lab => chained_obj (_is_hsv_image o) msg HSV2BGR BGR2LAB "lab" o
  end.

End Denote.

(** [sem m s d]: run from [s], [m] returns a reference to [o'] when
    [d = Ok o'] and raises [e] when [d = Err e]. *)
Definition sem (m : M loc) (s : St) (d : res Obj) : Prop :=
  match d with
  | Ok o' => exists r s', m s = (Ok r, s') /\ nth_error (heap s') r = Some o'
  | Err e => exists s', m s = (Err e, s')
  end.

(** The heap only grows. *)
Definition frames {A} (m : M A) : Prop :=
  forall s r s', m s = (r, s') -> exists xs, heap s' = (heap s ++ xs)%list.

(** A returned reference is newly allocated. *)
Definition fresh (m : M loc) : Prop :=
  forall s r s', m s = (Ok r, s') -> List.length (heap s) <= r.

Definition chain_of (pm : code -> list nat -> list Z -> list Z) (f : conv)
  : option ((loc -> M loc) * (loc -> M loc) * string) :=
  match f with
  | Hls2gray => Some (hls2bgr pm, bgr2gray pm, "gray")
  | Hls2hsv => Some (hls2bgr pm, bgr2hsv pm, "hsv")
  | Hls2lab => Some (hls2bgr pm, bgr2lab pm, "lab")
  | Hsv2gray => Some (hsv2bgr pm, bgr2gray pm, "gray")
  | Hsv2hls => Some (hsv2bgr pm, bgr2hls pm, "hls")
  | Hsv2lab => Some (hsv2bgr pm, bgr2lab pm, "lab")
  | _ => None
  end.

Definition is_shape_error {A} (r : res A) : bool :=
  match r with Err (ValueError _) => true | _ => false end.

(** Native codes each function applies, in order ([_constants.py] codes
    for the first hop, the [_bgr.py] code for the second). *)
Definition pipeline (f : conv) : list code :=
  match f with
  | Hls2rgb => [HLS2RGB]
  | Hls2bgr => [HLS2BGR]
  | Hls2gray => [HLS2BGR; BGR2GRAY]
  | Hls2hsv => [HLS2BGR; BGR2HSV]
  | Hls2lab => [HLS2BGR; BGR2LAB]
  | Hsv2rgb => [HSV2RGB]
  | Hsv2bgr => [HSV2BGR]
  | Hsv2gray => [HSV2BGR; BGR2GRAY]
  | Hsv2hls => [HSV2BGR; BGR2HLS]
  | Hsv2lab => [HSV2BGR; BGR2LAB]
  end.

(** Pixels, shape and native-call log of a sequence of [cvtColor] calls. *)
Fixpoint math_chain (pm : code -> list nat -> list Z -> list Z) (cs : list code)
    (sh : list nat) (px : list Z) : list Z :=
  match cs with
  | [] => px
  | c :: cs' => math_chain pm cs' (out_shape c sh) (pm c sh px)
  end.

Fixpoint shape_chain (cs : list code) (sh : list nat) : list nat :=
  match cs with
  | [] => sh
  | c :: cs' => shape_chain cs' (out_shape c sh)
  end.

Fixpoint trace_chain (cs : list code) (sh : list nat) : list (code * list nat) :=
  match cs with
  | [] => []
  | c :: cs' => (c, sh) :: trace_chain cs' (out_shape c sh)
  end.

(** The array returned by an accepted [cvtColor] call. *)
Definition cv_out (pm : code -> list nat -> list Z -> list Z) (c : code) (o : Obj) : Obj :=
  mkObj (out_shape c (shape o)) (pm c (shape o) (pixels o)) (dtype o) None.

(** A function of the shape of [hls2rgb]: load, check, convert, wrap. *)
Definition direct_form (pm : code -> list nat -> list Z -> list Z) (g : loc -> M loc)
    (valid : Obj -> bool) (msg : nat -> string) (c : code) (cs : string) : Prop :=
  forall l, g l = bind (load l) (fun o =>
     if negb (valid o) then raise (ValueError (msg (List.length (shape o))))
     else bind (cvtColor pm l c) (fun im => to_tensor im cs)).

(** ** Sanity checks on concrete inputs *)

Example py_str_int_ex : py_str_int 0 = "0" /\ py_str_int 2 = "2" /\ py_str_int 137 = "137".
Proof. vm_compute. auto. Qed.

Example hls2bgr_ex :
  hls2bgr id_math 0 (st1 (img_hls [4; 4; 3] "uint8")) =
  (Ok 2, mkSt [img_hls [4; 4; 3] "uint8";
               mkObj [4; 4; 3] (repeat 0%Z 48) "uint8" None;
               mkObj [4; 4; 3] (repeat 0%Z 48) "uint8" (Some "bgr")]
              [(HLS2BGR, [4; 4; 3])]).
Proof. vm_compute. reflexivity. Qed.

Example hls2bgr_2d_ex :
  hls2bgr id_math 0 (st1 (img_hls [4; 4] "uint8")) =
  (Err (ValueError "Tensor of shape 3 expected. Found shape 2. This function converts a HLS Tensor to its BGR counterpart"),
   st1 (img_hls [4; 4] "uint8")).
Proof. vm_compute. reflexivity. Qed.

(** ** Properties of the monad and of the building blocks *)

Section Laws.

Variable pm : code -> list nat -> list Z -> list Z.

Lemma nth_error_snoc {A} (xs : list A) (x : A) :
  nth_error (xs ++ [x])%list (List.length xs) = Some x.
Proof. rewrite nth_error_app2, Nat.sub_diag; reflexivity. Qed.

Lemma nth_error_prefix {A} (xs ys : list A) (l : nat) (x : A) :
  nth_error xs l = Some x -> nth_error (xs ++ ys)%list l = Some x.
Proof.
  intro H. rewrite nth_error_app1; [exact H|].
  apply nth_error_Some. congruence.
Qed.

Lemma load_spec l s o :
  nth_error (heap s) l = Some o -> load l s = (Ok o, s).
Proof. intro H. unfold load. rewrite H. reflexivity. Qed.

Lemma bind_ok {A B} (m : M A) (k : A -> M B) s a s' :
  m s = (Ok a, s') -> bind m k s = k a s'.
Proof. intro H. unfold bind. rewrite H. reflexivity. Qed.

Lemma bind_err {A B} (m : M A) (k : A -> M B) s e s' :
  m s = (Err e, s') -> bind m k s = (Err e, s').
Proof. intro H. unfold bind. rewrite H. reflexivity. Qed.

Lemma bind_inv {A B} (m : M A) (k : A -> M B) s r s'' :
  bind m k s = (r, s'') ->
  (exists a s', m s = (Ok a, s') /\ k a s' = (r, s'')) \/
  (exists e, m s = (Err e, s'') /\ r = Err e).
Proof.
  unfold bind. destruct (m s) as [[a|e] s'] eqn:E; intro H.
  - left. eauto.
  - right. inversion H; subst. eauto.
Qed.

Lemma frames_ret {A} (a : A) : frames (ret a).
Proof. intros s r s' H. inversion H. exists []. rewrite app_nil_r. reflexivity. Qed.

Lemma frames_raise {A} e : frames (@raise A e).
Proof. intros s r s' H. inversion H. exists []. rewrite app_nil_r. reflexivity. Qed.

Lemma frames_load l : frames (load l).
Proof.
  intros s r s' H. unfold load in H.
  destruct (nth_error (heap s) l); inversion H; exists []; rewrite app_nil_r; reflexivity.
Qed.

Lemma frames_alloc o : frames (alloc o).
Proof. intros s r s' H. inversion H. exists [o]. reflexivity. Qed.

Lemma frames_log_call c sh : frames (log_call c sh).
Proof. intros s r s' H. inversion H. exists []. rewrite app_nil_r. reflexivity. Qed.

Lemma frames_bind {A B} (m : M A) (k : A -> M B) :
  frames m -> (forall a, frames (k a)) -> frames (bind m k).
Proof.
  intros Hm Hk s r s'' H. apply bind_inv in H as [(a & s' & H1 & H2)|(e & H1 & _)].
  - destruct (Hm _ _ _ H1) as [xs Hx]. destruct (Hk _ _ _ _ H2) as [ys Hy].
    exists (xs ++ ys)%list. rewrite Hy, Hx, app_assoc. reflexivity.
  - exact (Hm _ _ _ H1).
Qed.

Lemma frames_if {A} (b : bool) (m1 m2 : M A) :
  frames m1 -> frames m2 -> frames (if b then m1 else m2).
Proof. destruct b; auto. Qed.

Create HintDb frame.
#[local] Hint Resolve frames_ret frames_raise frames_load frames_alloc
  frames_log_call frames_bind frames_if : frame.

Lemma frames_cvtColor l c : frames (cvtColor pm l c).
Proof. unfold cvtColor. eauto 7 with frame. Qed.

Lemma frames_to_tensor l cs : frames (to_tensor l cs).
Proof. unfold to_tensor. eauto with frame. Qed.

#[local] Hint Resolve frames_cvtColor frames_to_tensor : frame.

Lemma frames_bgr2 l :
  frames (bgr2gray pm l) /\ frames (bgr2hsv pm l) /\
  frames (bgr2hls pm l) /\ frames (bgr2lab pm l).
Proof. unfold bgr2gray, bgr2hsv, bgr2hls, bgr2lab. repeat split; eauto with frame. Qed.

Lemma frames_direct l :
  frames (hls2rgb pm l) /\ frames (hls2bgr pm l) /\
  frames (hsv2rgb pm l) /\ frames (hsv2bgr pm l).
Proof. unfold hls2rgb, hls2bgr, hsv2rgb, hsv2bgr. repeat split; eauto 8 with frame. Qed.

Lemma frames_run f l : frames (run pm f l).
Proof.
  pose proof (fun l => proj1 (frames_bgr2 l)) as G1.
  pose proof (fun l => proj1 (proj2 (frames_bgr2 l))) as G2.
  pose proof (fun l => proj1 (proj2 (proj2 (frames_bgr2 l)))) as G3.
  pose proof (fun l => proj2 (proj2 (proj2 (frames_bgr2 l)))) as G4.
  pose proof (fun l => proj1 (frames_direct l)) as D1.
  pose proof (fun l => proj1 (proj2 (frames_direct l))) as D2.
  pose proof (fun l => proj1 (proj2 (proj2 (frames_direct l)))) as D3.
  pose proof (fun l => proj2 (proj2 (proj2 (frames_direct l)))) as D4.
  destruct f; simpl;
    unfold hls2gray, hls2hsv, hls2lab, hsv2gray, hsv2hls, hsv2lab;
    eauto 8 with frame.
Qed.

End Laws.

Section Sem.

Variable pm : code -> list nat -> list Z -> list Z.

Lemma sem_observe m s d : sem m s d -> observe (m s) = rbind d (fun o => Ok (Some o)).
Proof.
  destruct d as [o'|e]; simpl.
  - intros (r & s' & -> & H). simpl. rewrite H. reflexivity.
  - intros (s' & ->). reflexivity.
Qed.

Lemma sem_bind (m : M loc) (k : loc -> M loc) s d1 kd :
  sem m s d1 ->
  (forall r s' o1, d1 = Ok o1 -> m s = (Ok r, s') ->
     nth_error (heap s') r = Some o1 -> sem (k r) s' (kd o1)) ->
  sem (bind m k) s (rbind d1 kd).
Proof.
  intros H1 H2. destruct d1 as [o1|e]; simpl in *.
  - destruct H1 as (r & s' & E & N). specialize (H2 r s' o1 eq_refl E N).
    pose proof (bind_ok m k s r s' E) as E'.
    destruct (kd o1); simpl in *; rewrite E'; exact H2.
  - destruct H1 as (s' & E). exists s'. exact (bind_err m k s e s' E).
Qed.

Lemma sem_load_bind l k s o d :
  nth_error (heap s) l = Some o -> sem (k o) s d -> sem (bind (load l) k) s d.
Proof.
  intros H1 H2. pose proof (bind_ok _ k s o s (load_spec l s o H1)) as E.
  destruct d; simpl in *; rewrite E; exact H2.
Qed.

Lemma sem_raise e s : sem (raise e) s (Err e).
Proof. exists s. reflexivity. Qed.

Lemma sem_to_tensor l cs s o :
  nth_error (heap s) l = Some o -> sem (to_tensor l cs) s (Ok (tag_obj o cs)).
Proof.
  intro H. unfold sem, to_tensor. rewrite (bind_ok _ _ s o s (load_spec l s o H)).
  exists (List.length (heap s)), (mkSt (heap s ++ [tag_obj o cs])%list (calls s)).
  split; [reflexivity|]. apply nth_error_snoc.
Qed.

Lemma sem_cvtColor l c s o :
  nth_error (heap s) l = Some o -> sem (cvtColor pm l c) s (cv_obj pm c o).
Proof.
  intro H. unfold cv_obj.
  destruct (cv_accepts c o) eqn:A; unfold sem, cvtColor;
    rewrite (bind_ok _ _ s o s (load_spec l s o H));
    unfold bind at 1; unfold log_call at 1; cbv beta iota; rewrite A.
  - eexists _, _. split; [reflexivity|]. apply nth_error_snoc.
  - eexists. reflexivity.
Qed.

Lemma sem_cvt_tag l c cs s o :
  nth_error (heap s) l = Some o ->
  sem (bind (cvtColor pm l c) (fun im => to_tensor im cs)) s
      (rbind (cv_obj pm c o) (fun o1 => Ok (tag_obj o1 cs))).
Proof.
  intro H. apply sem_bind; [apply sem_cvtColor; exact H|].
  intros r s' o1 _ _ N. apply sem_to_tensor. exact N.
Qed.

Lemma sem_direct (g : loc -> M loc) (valid : Obj -> bool) (msg : nat -> string) c cs l s o :
  (forall l, g l = bind (load l) (fun o =>
     if negb (valid o) then raise (ValueError (msg (List.length (shape o))))
     else bind (cvtColor pm l c) (fun im => to_tensor im cs))) ->
  nth_error (heap s) l = Some o ->
  sem (g l) s (direct_obj pm (valid o) (msg (List.length (shape o))) c cs o).
Proof.
  intros Hg H. rewrite Hg. apply (sem_load_bind _ _ _ o); [exact H|].
  unfold direct_obj. destruct (valid o); simpl.
  - apply sem_cvt_tag. exact H.
  - apply sem_raise.
Qed.

Lemma sem_chained (g inner : loc -> M loc) (valid : Obj -> bool) (msg : nat -> string)
    (imsg : nat -> string) c c2 cs l s o :
  (forall l, inner l = bind (load l) (fun o =>
     if negb (valid o) then raise (ValueError (imsg (List.length (shape o))))
     else bind (cvtColor pm l c) (fun im => to_tensor im "bgr"))) ->
  (forall l, g l = bind (load l) (fun o =>
     if negb (valid o) then raise (ValueError (msg (List.length (shape o))))
     else bind (inner l) (fun bgr =>
            bind (bind (cvtColor pm bgr c2) (fun im => to_tensor im cs))
                 (fun im => to_tensor im cs)))) ->
  nth_error (heap s) l = Some o ->
  sem (g l) s (chained_obj pm (valid o) (msg (List.length (shape o))) c c2 cs o).
Proof.
  intros Hi Hg H. rewrite Hg. apply (sem_load_bind _ _ _ o); [exact H|].
  unfold chained_obj. destruct (valid o) eqn:V; simpl.
  - apply sem_bind.
    + pose proof (sem_direct inner valid imsg c "bgr" l s o Hi H) as D.
      rewrite V in D. exact D.
    + intros r s' o1 _ _ N. apply sem_bind; [apply sem_cvt_tag; exact N|].
      intros r2 s2 o2 _ _ N2. apply sem_to_tensor. exact N2.
  - apply sem_raise.
Qed.

Lemma sem_run f l s o :
  nth_error (heap s) l = Some o -> sem (run pm f l) s (conv_obj pm f o).
Proof.
  intro H.
  destruct f; simpl run; unfold conv_obj;
    first
      [ apply (sem_direct _ _ (fun n => shape_msg _ n)); [intro; reflexivity | exact H]
      | apply (sem_chained _ (hls2bgr pm) _ (fun n => shape_msg _ n)
                 (fun n => shape_msg Hls2bgr n)); [intro; reflexivity | intro; reflexivity | exact H]
      | apply (sem_chained _ (hsv2bgr pm) _ (fun n => shape_msg _ n)
                 (fun n => shape_msg Hsv2bgr n)); [intro; reflexivity | intro; reflexivity | exact H] ].
Qed.

End Sem.

(** ** Helper lemmas for the claims *)

Section Facts.

Variable pm : code -> list nat -> list Z -> list Z.

Lemma fresh_raise e : fresh (raise e).
Proof. intros s r s' H. discriminate H. Qed.

Lemma fresh_to_tensor l cs : fresh (to_tensor l cs).
Proof.
  intros s r s' H. apply bind_inv in H as [(o & s1 & H1 & H2)|(e & _ & H2)].
  - unfold load in H1. destruct (nth_error (heap s) l); inversion H1; subst.
    inversion H2. lia.
  - discriminate H2.
Qed.

Lemma fresh_bind {A} (m : M A) (k : A -> M loc) :
  frames m -> (forall a, fresh (k a)) -> fresh (bind m k).
Proof.
  intros Hm Hk s r s'' H. apply bind_inv in H as [(a & s' & H1 & H2)|(e & _ & H2)].
  - destruct (Hm _ _ _ H1) as [xs Hx]. specialize (Hk a _ _ _ H2).
    rewrite Hx, length_app in Hk. lia.
  - discriminate H2.
Qed.

Lemma fresh_if (b : bool) (m1 m2 : M loc) :
  fresh m1 -> fresh m2 -> fresh (if b then m1 else m2).
Proof. destruct b; auto. Qed.

Ltac solve_fresh :=
  repeat first
    [ apply fresh_to_tensor | apply fresh_raise
    | apply frames_cvtColor | apply frames_to_tensor | apply frames_load
    | apply frames_raise | apply fresh_bind | apply fresh_if
    | apply frames_bind | apply frames_if
    | match goal with |- forall _, _ => intro end ].

Lemma fresh_run f l : fresh (run pm f l).
Proof.
  destruct f; simpl run;
    unfold hls2rgb, hls2bgr, hls2gray, hls2hsv, hls2lab,
           hsv2rgb, hsv2bgr, hsv2gray, hsv2hls, hsv2lab,
           bgr2gray, bgr2hsv, bgr2hls, bgr2lab;
    solve_fresh.
Qed.

(** A dangling reference is never dereferenced successfully. *)
Lemma run_dangling f l s :
  nth_error (heap s) l = None -> run pm f l s = (Err NameError, s).
Proof.
  intro N.
  assert (L : load l s = (Err NameError, s)) by (unfold load; rewrite N; reflexivity).
  destruct f; simpl run;
    unfold hls2rgb, hls2bgr, hls2gray, hls2hsv, hls2lab,
           hsv2rgb, hsv2bgr, hsv2gray, hsv2hls, hsv2lab;
    exact (bind_err _ _ _ _ _ L).
Qed.

Lemma run_observe f l s :
  observe (run pm f l s) =
  match nth_error (heap s) l with
  | Some o => rbind (conv_obj pm f o) (fun o' => Ok (Some o'))
  | None => Err NameError
  end.
Proof.
  destruct (nth_error (heap s) l) as [o|] eqn:N.
  - apply sem_observe. apply sem_run. exact N.
  - rewrite (run_dangling f l s N). reflexivity.
Qed.

Lemma sem_err m s d e s' : sem m s d -> m s = (Err e, s') -> d = Err e.
Proof.
  destruct d as [o'|e']; simpl.
  - intros (r & s1 & E & _). congruence.
  - intros (s1 & E). congruence.
Qed.

Lemma is_3ch_iff sh :
  (Nat.eqb (List.length sh) 3 &&
   match py_last sh with Some d => Nat.eqb d 3 | None => false end)%bool = true <->
  List.length sh = 3 /\ last sh 0 = 3.
Proof.
  destruct sh as [|a [|b [|c [|d t]]]]; unfold py_last; simpl;
    first [ split; [discriminate | intros [H _]; simpl in H; lia]
          | rewrite Nat.eqb_eq; tauto ].
Qed.

Lemma valid_shape (v : Obj -> bool) o :
  (v = _is_hls_image \/ v = _is_hsv_image) ->
  v o = true -> exists h w, shape o = [h; w; 3].
Proof.
  intros Hv V. assert (I : List.length (shape o) = 3 /\ last (shape o) 0 = 3)
    by (destruct Hv; subst; apply is_3ch_iff; exact V).
  destruct I as [L T].
  destruct (shape o) as [|a [|b [|c [|d t]]]]; simpl in L, T; try discriminate.
  subst. eauto.
Qed.

Lemma validator_cases f : validator f = _is_hls_image \/ validator f = _is_hsv_image.
Proof. destruct f; simpl; auto. Qed.

Lemma cv_obj_err c o e : cv_obj pm c o = Err e -> exists m, e = CvError m.
Proof. unfold cv_obj. destruct (cv_accepts c o); intro H; inversion H; eauto. Qed.

End Facts.

Lemma conv_obj_tag pm f o o' :
  conv_obj pm f o = Ok o' -> cspace o' = Some (dest f).
Proof.
  destruct f; unfold conv_obj, chained_obj, direct_obj;
    destruct (_ o); simpl; try discriminate;
    destruct (cv_obj pm _ o) as [o1|e]; simpl; try discriminate;
    try (intro H; inversion H; reflexivity);
    destruct (cv_obj pm _ (tag_obj o1 "bgr")); simpl; try discriminate;
    intro H; inversion H; reflexivity.
Qed.

(** ** Claims *)

(** C1 (shape gate).  [_is_hls_image] and [_is_hsv_image] return [true]
    exactly when [len(img.shape) == 3 and img.shape[-1] == 3]; they are
    pure functions of the object.  On an input that fails this check, each
    of the ten conversion functions raises the [ValueError] and returns the
    state unchanged: no native call is recorded and nothing is allocated. *)
Theorem shape_gate :
  (forall o, _is_hls_image o = true <->
             List.length (shape o) = 3 /\ last (shape o) 0 = 3) /\
  (forall o, _is_hsv_image o = true <->
             List.length (shape o) = 3 /\ last (shape o) 0 = 3) /\
  (forall pm f l s o,
     nth_error (heap s) l = Some o ->
     List.length (shape o) <> 3 \/ last (shape o) 0 <> 3 ->
     run pm f l s = (Err (ValueError (shape_msg f (List.length (shape o)))), s)).
Proof.
  split; [intro o; apply is_3ch_iff|]. split; [intro o; apply is_3ch_iff|].
  intros pm f l s o N Bad.
  assert (V : validator f o = false).
  { destruct (validator f o) eqn:V; [|reflexivity].
    exfalso. destruct (validator_cases f) as [E|E]; rewrite E in V;
      apply is_3ch_iff in V; tauto. }
  pose proof (load_spec l s o N) as L.
  destruct f; simpl in V; simpl run;
    unfold hls2rgb, hls2bgr, hls2gray, hls2hsv, hls2lab,
           hsv2rgb, hsv2bgr, hsv2gray, hsv2hls, hsv2lab;
    rewrite (bind_ok _ _ _ _ _ L), V; reflexivity.
Qed.

Lemma shape_gate_witness :
  nth_error (heap (st_hls [4; 4] "uint8")) 0 = Some (img_hls [4; 4] "uint8") /\
  run id_math Hls2bgr 0 (st_hls [4; 4] "uint8") =
  (Err (ValueError (shape_msg Hls2bgr 2)), st_hls [4; 4] "uint8").
Proof.
  split; [reflexivity|].
  apply (proj2 (proj2 shape_gate) id_math Hls2bgr 0 _ (img_hls [4; 4] "uint8")).
  - reflexivity.
  - left. simpl. discriminate.
Defined.

(** C2 (error message names the conversion).  [hls2hsv] is the HLS to HSV
    converter, but on a 2-dimensional input its message names the LAB
    conversion and never mentions HSV; every sibling names its own
    destination. *)
Theorem hls2hsv_error_names_lab pm :
  hls2hsv pm 0 (st_hls [4; 4] "uint8") =
  (Err (ValueError "Tensor of shape 3 expected. Found shape 2. This function converts a HLS Tensor to its LAB counterpart"),
   st_hls [4; 4] "uint8") /\
  py_contains (shape_msg Hls2hsv 2) "HSV" = false /\
  py_contains (shape_msg Hls2hsv 2) "LAB" = true /\
  py_contains (shape_msg Hsv2hls 2) "HLS counterpart" = true.
Proof. split; [reflexivity|]. vm_compute. auto. Qed.

(** C3 (chained correctness).  For a valid input [X], [hls2gray(X)] and
    [bgr2gray(hls2bgr(X))] produce the same object (buffer, dtype and tag),
    or raise the same error. *)
Theorem hls2gray_chain_exact pm l s o :
  nth_error (heap s) l = Some o -> _is_hls_image o = true ->
  observe (hls2gray pm l s) = observe (bind (hls2bgr pm l) (bgr2gray pm) s).
Proof.
  intros N V.
  change (hls2gray pm l s) with (run pm Hls2gray l s).
  change (bind (hls2bgr pm l) (bgr2gray pm) s) with
    (bind (run pm Hls2bgr l)
          (fun r => bind (cvtColor pm r BGR2GRAY) (fun im => to_tensor im "gray")) s).
  rewrite (sem_observe _ _ _ (sem_run pm Hls2gray l s o N)).
  rewrite (sem_observe _ _ _
            (sem_bind _ _ _ _ _ (sem_run pm Hls2bgr l s o N)
               (fun r s' o1 _ _ N1 => sem_cvt_tag pm r BGR2GRAY "gray" s' o1 N1))).
  unfold conv_obj, chained_obj, direct_obj. rewrite V.
  destruct (cv_obj pm HLS2BGR o); simpl; [|reflexivity].
  destruct (cv_obj pm BGR2GRAY _); reflexivity.
Qed.

Lemma hls2gray_chain_exact_witness :
  nth_error (heap (st_hls [4; 4; 3] "uint8")) 0 = Some (img_hls [4; 4; 3] "uint8") /\
  _is_hls_image (img_hls [4; 4; 3] "uint8") = true /\
  observe (hls2gray id_math 0 (st_hls [4; 4; 3] "uint8")) =
  observe (bind (hls2bgr id_math 0) (bgr2gray id_math) (st_hls [4; 4; 3] "uint8")).
Proof.
  split; [reflexivity|]. split; [reflexivity|].
  apply (hls2gray_chain_exact _ _ _ (img_hls [4; 4; 3] "uint8")); reflexivity.
Defined.

(** C4 (tag correctness).  Whenever a conversion function returns, the
    object it returns is tagged with the function's destination space. *)
Theorem tag_correct pm f l s r s' :
  run pm f l s = (Ok r, s') ->
  exists o', nth_error (heap s') r = Some o' /\ cspace o' = Some (dest f).
Proof.
  intro H. pose proof (run_observe pm f l s) as E. rewrite H in E. simpl in E.
  destruct (nth_error (heap s) l) as [o|]; [|discriminate].
  destruct (conv_obj pm f o) as [o'|e] eqn:C; simpl in E; inversion E.
  exists o'. split; [exact H1|]. exact (conv_obj_tag pm f o o' C).
Qed.

Lemma tag_correct_witness :
  run id_math Hls2rgb 0 (st_hls [4; 4; 3] "uint8") =
    (Ok 2, snd (run id_math Hls2rgb 0 (st_hls [4; 4; 3] "uint8"))) /\
  exists o', nth_error (heap (snd (run id_math Hls2rgb 0 (st_hls [4; 4; 3] "uint8")))) 2
             = Some o' /\ cspace o' = Some "rgb".
Proof.
  split; [vm_compute; reflexivity|].
  apply (tag_correct id_math Hls2rgb 0 (st_hls [4; 4; 3] "uint8")).
  vm_compute. reflexivity.
Defined.

Lemma bind_assoc_at {A B C} (m : M A) (k1 : A -> M B) (k2 : B -> M C) s :
  bind (bind m k1) k2 s = bind m (fun x => bind (k1 x) k2) s.
Proof. unfold bind. destruct (m s) as [[a|e] s']; reflexivity. Qed.

Lemma to_tensor_tags (m : M loc) cs s r s' :
  bind m (fun im => to_tensor im cs) s = (Ok r, s') ->
  exists o', nth_error (heap s') r = Some o' /\ cspace o' = Some cs.
Proof.
  intro H. apply bind_inv in H as [(a & s1 & _ & H)|(e & _ & H)]; [|discriminate].
  unfold to_tensor in H. apply bind_inv in H as [(o & s2 & L & H)|(e & _ & H)];
    [|discriminate].
  unfold load in L. destruct (nth_error (heap s1) a); inversion L; subst.
  inversion H; subst. eexists. split; [apply nth_error_snoc | reflexivity].
Qed.

Lemma retag_same (m : M loc) cs s :
  (forall r s', m s = (Ok r, s') ->
     exists o', nth_error (heap s') r = Some o' /\ cspace o' = Some cs) ->
  observe (bind m (fun im => to_tensor im cs) s) = observe (m s).
Proof.
  intro T. destruct (m s) as [[r|e] s'] eqn:E.
  - destruct (T r s' eq_refl) as (o' & N & C).
    rewrite (bind_ok _ _ _ _ _ E).
    rewrite (sem_observe _ _ _ (sem_to_tensor r cs s' o' N)). simpl. rewrite N.
    destruct o' as [sh px dt cp]; simpl in C; subst; reflexivity.
  - rewrite (bind_err _ _ _ _ _ E). reflexivity.
Qed.

Lemma conv_obj_err pm f o e :
  validator f o = true -> conv_obj pm f o = Err e -> exists m, e = CvError m.
Proof.
  intro V. destruct f; simpl in V; unfold conv_obj, chained_obj, direct_obj;
    rewrite V; simpl;
    destruct (cv_obj pm _ o) as [o1|e1] eqn:C1; simpl;
    try (intro H; inversion H; subst; eapply cv_obj_err; eassumption);
    destruct (cv_obj pm _ (tag_obj o1 "bgr")) eqn:C2; simpl; intro H; inversion H;
    subst; eapply cv_obj_err; eassumption.
Qed.

Lemma validator_shape f o :
  shape o = [List.nth 0 (shape o) 0; List.nth 1 (shape o) 0; 3] -> validator f o = true.
Proof.
  intro Hs. destruct (validator_cases f) as [E|E]; rewrite E;
    unfold _is_hls_image, _is_hsv_image, py_last; rewrite Hs; reflexivity.
Qed.

Lemma conv_obj_shape pm f o o' h w :
  shape o = [h; w; 3] -> conv_obj pm f o = Ok o' ->
  shape o' = ([h; w] ++ (if String.eqb (dest f) "gray" then [] else [3]))%list.
Proof.
  intro Hs. assert (V : validator f o = true)
    by (apply validator_shape; rewrite Hs; reflexivity).
  destruct f; simpl in V; unfold conv_obj, chained_obj, direct_obj;
    rewrite V; simpl;
    destruct (cv_obj pm _ o) as [o1|e1] eqn:C1; simpl; try discriminate;
    unfold cv_obj in C1; destruct (cv_accepts _ o); inversion C1; subst;
    simpl; try (intro H; inversion H; subst; simpl; rewrite Hs; reflexivity);
    unfold cv_obj; destruct (cv_accepts _ _); simpl; intro H; inversion H; subst;
    simpl; rewrite Hs; reflexivity.
Qed.

Lemma invalid_shape f o :
  validator f o = false -> List.length (shape o) <> 3 \/ last (shape o) 0 <> 3.
Proof.
  intro V. destruct (Nat.eq_dec (List.length (shape o)) 3) as [L|L]; [|auto].
  destruct (Nat.eq_dec (last (shape o) 0) 3) as [T|T]; [|auto].
  exfalso. destruct (validator_cases f) as [E|E]; rewrite E in V;
    assert (I := proj2 (is_3ch_iff (shape o)) (conj L T));
    [unfold _is_hls_image in V | unfold _is_hsv_image in V]; congruence.
Qed.

Lemma shape_error_run pm f l s o :
  nth_error (heap s) l = Some o ->
  is_shape_error (fst (run pm f l s)) = negb (validator f o).
Proof.
  intro N. assert (E := run_observe pm f l s). rewrite N in E.
  destruct (run pm f l s) as [[r|e] s'] eqn:R; simpl in E |- *.
  - destruct (conv_obj pm f o) eqn:C; simpl in E; [|discriminate].
    destruct (validator f o) eqn:V; [reflexivity|].
    exfalso. revert C. destruct f; simpl in V; unfold conv_obj, chained_obj, direct_obj;
      rewrite V; discriminate.
  - destruct (conv_obj pm f o) eqn:C; simpl in E; [discriminate|]. inversion E; subst.
    destruct (validator f o) eqn:V.
    + destruct (conv_obj_err pm f o _ V C) as [m ->]. reflexivity.
    + revert C. destruct f; simpl in V; unfold conv_obj, chained_obj, direct_obj;
        rewrite V; intro C; inversion C; reflexivity.
Qed.

(** C5 (fixed two-hop pipeline).  Each chained converter ([chain_of] lists
    the six of them with their two hops and destination tag) runs, once its
    entry check has passed, exactly: first hop [src2bgr] on the input, second
    hop [bgr2<dst>] of the BGR module on its result, and the factory
    [to_tensor] on the second hop's result.  What it returns is the second
    hop's result: the same buffer, dtype and tag (or the same error). *)
Theorem chained_two_hops pm f h1 h2 cs l s o :
  chain_of pm f = Some (h1, h2, cs) ->
  nth_error (heap s) l = Some o -> validator f o = true ->
  run pm f l s = bind (h1 l) (fun b => bind (h2 b) (fun im => to_tensor im cs)) s /\
  observe (run pm f l s) = observe (bind (h1 l) h2 s).
Proof.
  intros Hc N V.
  assert (P : run pm f l s = bind (h1 l) (fun b => bind (h2 b) (fun im => to_tensor im cs)) s).
  { pose proof (load_spec l s o N) as L.
    destruct f; simpl in Hc; inversion Hc; subst; simpl in V; simpl run;
      unfold hls2gray, hls2hsv, hls2lab, hsv2gray, hsv2hls, hsv2lab;
      rewrite (bind_ok _ _ _ _ _ L), V; reflexivity. }
  split; [exact P|]. rewrite P, <- bind_assoc_at. apply retag_same.
  intros r s' H. apply bind_inv in H as [(b & s1 & _ & H)|(e & _ & H)]; [|discriminate].
  destruct f; simpl in Hc; inversion Hc; subst;
    unfold bgr2gray, bgr2hsv, bgr2hls, bgr2lab in H;
    exact (to_tensor_tags _ _ _ _ _ H).
Qed.

Lemma chained_two_hops_witness :
  chain_of id_math Hls2hsv = Some (hls2bgr id_math, bgr2hsv id_math, "hsv") /\
  nth_error (heap (st_hls [4; 4; 3] "uint8")) 0 = Some (img_hls [4; 4; 3] "uint8") /\
  observe (run id_math Hls2hsv 0 (st_hls [4; 4; 3] "uint8")) =
  observe (bind (hls2bgr id_math 0) (bgr2hsv id_math) (st_hls [4; 4; 3] "uint8")).
Proof.
  split; [reflexivity|]. split; [reflexivity|].
  apply (proj2 (chained_two_hops id_math Hls2hsv _ _ _ 0 (st_hls [4; 4; 3] "uint8")
                  (img_hls [4; 4; 3] "uint8")
                  eq_refl eq_refl eq_refl)).
Defined.

(** C6, counterexample.  On a valid float64 HLS image of shape (1, 1, 3)
    the entry check of [hls2gray] passes, yet its first hop [hls2bgr]
    fails: cv2 rejects the dtype, and the whole chain raises that error. *)
Lemma chain_inner_can_fail :
  _is_hls_image (img_hls [1; 1; 3] "float64") = true /\
  fst (hls2bgr id_math 0 (st_hls [1; 1; 3] "float64")) =
    Err (CvError "cvtColor: unsupported input") /\
  fst (hls2gray id_math 0 (st_hls [1; 1; 3] "float64")) =
    Err (CvError "cvtColor: unsupported input").
Proof. vm_compute. auto. Qed.

(** C6, as amended.  For a valid input, the first hop of each chained
    converter never takes its shape-error branch: it, and the chain as a
    whole, can only fail with an error raised by the native [cvtColor]. *)
Theorem chain_inner_no_shape_error pm f h1 h2 cs l s o :
  chain_of pm f = Some (h1, h2, cs) ->
  nth_error (heap s) l = Some o -> validator f o = true ->
  (forall e s', h1 l s = (Err e, s') -> exists m, e = CvError m) /\
  (forall e s', run pm f l s = (Err e, s') -> exists m, e = CvError m).
Proof.
  intros Hc N V. split.
  - intros e s' E.
    destruct f; simpl in Hc; inversion Hc; subst; simpl in V;
      first
        [ change (hls2bgr pm l s) with (run pm Hls2bgr l s) in E;
          apply (conv_obj_err pm Hls2bgr o e V);
          exact (sem_err _ _ _ _ _ (sem_run pm Hls2bgr l s o N) E)
        | change (hsv2bgr pm l s) with (run pm Hsv2bgr l s) in E;
          apply (conv_obj_err pm Hsv2bgr o e V);
          exact (sem_err _ _ _ _ _ (sem_run pm Hsv2bgr l s o N) E) ].
  - intros e s' E. apply (conv_obj_err pm f o e V).
    exact (sem_err _ _ _ _ _ (sem_run pm f l s o N) E).
Qed.

Lemma chain_inner_no_shape_error_witness :
  chain_of id_math Hls2gray = Some (hls2bgr id_math, bgr2gray id_math, "gray") /\
  hls2bgr id_math 0 (st_hls [1; 1; 3] "float64") =
    (Err (CvError "cvtColor: unsupported input"),
     snd (hls2bgr id_math 0 (st_hls [1; 1; 3] "float64"))) /\
  exists m, CvError "cvtColor: unsupported input" = CvError m.
Proof.
  split; [reflexivity|]. split; [vm_compute; reflexivity|].
  apply (proj1 (chain_inner_no_shape_error id_math Hls2gray _ _ _ 0
                  (st_hls [1; 1; 3] "float64") (img_hls [1; 1; 3] "float64")
                  eq_refl eq_refl eq_refl)
               _ (snd (hls2bgr id_math 0 (st_hls [1; 1; 3] "float64")))).
  vm_compute. reflexivity.
Defined.

(** C7 (shape preservation).  On a valid input of shape (h, w, 3), a call
    that returns gives an object of spatial shape (h, w); for every
    destination other than gray its shape is (h, w, 3). *)
Theorem shape_preserved pm f l s o r s' o' :
  nth_error (heap s) l = Some o -> validator f o = true ->
  run pm f l s = (Ok r, s') -> nth_error (heap s') r = Some o' ->
  exists h w, shape o = [h; w; 3] /\ firstn 2 (shape o') = [h; w] /\
              (dest f <> "gray" -> shape o' = [h; w; 3]).
Proof.
  intros N V R N'.
  destruct (valid_shape (validator f) o (validator_cases f) V) as (h & w & Hs).
  assert (E := run_observe pm f l s). rewrite N, R in E. simpl in E. rewrite N' in E.
  destruct (conv_obj pm f o) as [o1|e] eqn:C; simpl in E; [|discriminate].
  injection E as E1. subst o1.
  pose proof (conv_obj_shape pm f o o' h w Hs C) as S.
  exists h, w. split; [exact Hs|].
  destruct (String.eqb (dest f) "gray") eqn:G; rewrite S; simpl.
  - split; [reflexivity|]. apply String.eqb_eq in G. contradiction.
  - split; reflexivity.
Qed.

Lemma shape_preserved_witness :
  exists h w,
    shape (img_hls [4; 5; 3] "uint8") = [h; w; 3] /\
    firstn 2 (shape (mkObj [4; 5; 3] (repeat 0%Z 60) "uint8" (Some "lab"))) = [h; w] /\
    ("lab" <> "gray" ->
     shape (mkObj [4; 5; 3] (repeat 0%Z 60) "uint8" (Some "lab")) = [h; w; 3]).
Proof.
  apply (shape_preserved id_math Hls2lab 0 (st_hls [4; 5; 3] "uint8")
           (img_hls [4; 5; 3] "uint8") 5
           (snd (run id_math Hls2lab 0 (st_hls [4; 5; 3] "uint8")))); vm_compute;
    reflexivity.
Defined.

(** C8 (no mutation).  A call only appends to the heap: every object that
    existed before, the input among them, is unchanged afterwards; a
    returned reference points to a newly allocated object, distinct from
    the input.  When the shape check fails, the state is left exactly as it
    was and the shape error is raised. *)
Theorem no_mutation pm f l s o r s' :
  nth_error (heap s) l = Some o -> run pm f l s = (r, s') ->
  (exists xs, heap s' = (heap s ++ xs)%list) /\
  nth_error (heap s') l = Some o /\
  (forall a, r = Ok a -> List.length (heap s) <= a /\ a <> l) /\
  (validator f o = false -> s' = s /\ exists m, r = Err (ValueError m)).
Proof.
  intros N R.
  destruct (frames_run pm f l s r s' R) as [xs Hx].
  split; [exists xs; exact Hx|].
  split; [rewrite Hx; apply nth_error_prefix; exact N|].
  split.
  - intros a ->. pose proof (fresh_run pm f l s a s' R) as F.
    assert (l < List.length (heap s)) by (apply nth_error_Some; congruence).
    split; [exact F | lia].
  - intro V. rewrite (proj2 (proj2 shape_gate) pm f l s o N (invalid_shape f o V)) in R.
    inversion R. split; [reflexivity | eauto].
Qed.

Lemma no_mutation_witness :
  nth_error (heap (st_hls [2; 2; 3] "uint8")) 0 = Some (img_hls [2; 2; 3] "uint8") /\
  List.length (heap (st_hls [2; 2; 3] "uint8")) <= 5 /\ 5 <> 0.
Proof.
  split; [reflexivity|].
  apply (proj1 (proj2 (proj2 (no_mutation id_math Hls2gray 0 (st_hls [2; 2; 3] "uint8")
     (img_hls [2; 2; 3] "uint8") (Ok 5)
     (snd (run id_math Hls2gray 0 (st_hls [2; 2; 3] "uint8"))) eq_refl
     ltac:(vm_compute; reflexivity)))) 5).
  reflexivity.
Defined.

(** C9 (determinism).  Two calls of the same function on inputs holding
    the same object observe the same outcome: the same returned buffer,
    dtype and tag, or the same error, whatever else the heap holds.  In
    particular, calling it a second time right after a first call returns
    what the first returned, and the first call's only effect on the heap
    is to append new objects. *)
Theorem deterministic pm f l1 s1 l2 s2 o :
  nth_error (heap s1) l1 = Some o -> nth_error (heap s2) l2 = Some o ->
  observe (run pm f l1 s1) = observe (run pm f l2 s2) /\
  (forall r s', run pm f l1 s1 = (r, s') ->
     observe (run pm f l1 s') = observe (r, s') /\
     exists xs, heap s' = (heap s1 ++ xs)%list).
Proof.
  intros N1 N2. split.
  - rewrite !run_observe, N1, N2. reflexivity.
  - intros r s' R. destruct (frames_run pm f l1 s1 r s' R) as [xs Hx].
    split; [|exists xs; exact Hx].
    rewrite <- R, !run_observe, N1, Hx, (nth_error_prefix _ xs _ _ N1). reflexivity.
Qed.

Lemma deterministic_witness :
  observe (run id_math Hsv2rgb 0 (st_hls [3; 2; 3] "uint8")) =
  observe (run id_math Hsv2rgb 1
             (mkSt [img_hls [1; 1; 3] "float32"; img_hls [3; 2; 3] "uint8"] [])).
Proof.
  apply (proj1 (deterministic id_math Hsv2rgb 0 (st_hls [3; 2; 3] "uint8") 1
                  (mkSt [img_hls [1; 1; 3] "float32"; img_hls [3; 2; 3] "uint8"] [])
                  (img_hls [3; 2; 3] "uint8") eq_refl eq_refl)).
Defined.

(** C10, counterexample.  Two inputs of equal shape (2, 2, 3), one uint8
    and one float64: [hls2rgb] returns on the first and raises cv2's error
    (not the shape error) on the second; and an input of shape (0, 4, 3)
    passes the shape check but is rejected by cv2 as empty. *)
Lemma same_shape_different_outcome :
  shape (img_hls [2; 2; 3] "uint8") = shape (img_hls [2; 2; 3] "float64") /\
  fst (hls2rgb id_math 0 (st_hls [2; 2; 3] "uint8")) = Ok 2 /\
  fst (hls2rgb id_math 0 (st_hls [2; 2; 3] "float64")) =
    Err (CvError "cvtColor: unsupported input") /\
  _is_hls_image (img_hls [0; 4; 3] "uint8") = true /\
  fst (hls2rgb id_math 0 (st_hls [0; 4; 3] "uint8")) =
    Err (CvError "cvtColor: unsupported input").
Proof. vm_compute. repeat split. Qed.

(** C10, as amended.  Whether a conversion function raises the shape
    error depends only on the input's shape: on two inputs of equal shape
    each function raises it on both or on neither, whatever their pixels,
    dtype or tag; an input of shape (h, w, 3), h and w possibly 0, never
    raises it (cv2 may still reject such an input); and the validators of
    the two modules are the same predicate. *)
Theorem shape_error_by_shape_only :
  (forall pm f l1 s1 o1 l2 s2 o2,
     nth_error (heap s1) l1 = Some o1 -> nth_error (heap s2) l2 = Some o2 ->
     shape o1 = shape o2 ->
     is_shape_error (fst (run pm f l1 s1)) = is_shape_error (fst (run pm f l2 s2))) /\
  (forall pm f l s o h w,
     nth_error (heap s) l = Some o -> shape o = [h; w; 3] ->
     is_shape_error (fst (run pm f l s)) = false) /\
  (forall o, _is_hls_image o = _is_hsv_image o).
Proof.
  split; [|split].
  - intros pm f l1 s1 o1 l2 s2 o2 N1 N2 S.
    rewrite (shape_error_run pm f l1 s1 o1 N1), (shape_error_run pm f l2 s2 o2 N2).
    destruct (validator_cases f) as [E|E]; rewrite E;
      unfold _is_hls_image, _is_hsv_image; rewrite S; reflexivity.
  - intros pm f l s o h w N S. rewrite (shape_error_run pm f l s o N).
    rewrite validator_shape; [reflexivity|]. rewrite S. reflexivity.
  - intro o. reflexivity.
Qed.

Lemma shape_error_by_shape_only_witness :
  is_shape_error (fst (run id_math Hls2lab 0 (st_hls [0; 7; 3] "float64"))) = false /\
  is_shape_error (fst (run id_math Hsv2hls 0 (st_hls [5; 5] "uint8"))) =
  is_shape_error (fst (run id_math Hsv2hls 0 (st_hls [5; 5] "float32"))).
Proof.
  split.
  - apply (proj1 (proj2 shape_error_by_shape_only) id_math Hls2lab 0
             (st_hls [0; 7; 3] "float64") (img_hls [0; 7; 3] "float64") 0 7);
      reflexivity.
  - apply (proj1 shape_error_by_shape_only id_math Hsv2hls 0 (st_hls [5; 5] "uint8")
             (img_hls [5; 5] "uint8") 0 (st_hls [5; 5] "float32")
             (img_hls [5; 5] "float32")); reflexivity.
Defined.

(** ** Further properties of the converters *)

Section Closed.

Variable pm : code -> list nat -> list Z -> list Z.

Lemma cvtColor_ok l c s o :
  nth_error (heap s) l = Some o -> cv_accepts c o = true ->
  cvtColor pm l c s =
  (Ok (List.length (heap s)),
   mkSt (heap s ++ [cv_out pm c o])%list (calls s ++ [(c, shape o)])%list).
Proof.
  intros N A. unfold cvtColor. rewrite (bind_ok _ _ _ _ _ (load_spec l s o N)).
  unfold bind at 1, log_call at 1. cbv beta iota. rewrite A. reflexivity.
Qed.

Lemma cvtColor_fail l c s o :
  nth_error (heap s) l = Some o -> cv_accepts c o = false ->
  cvtColor pm l c s =
  (Err (CvError "cvtColor: unsupported input"),
   mkSt (heap s) (calls s ++ [(c, shape o)])%list).
Proof.
  intros N A. unfold cvtColor. rewrite (bind_ok _ _ _ _ _ (load_spec l s o N)).
  unfold bind at 1, log_call at 1. cbv beta iota. rewrite A. reflexivity.
Qed.

Lemma to_tensor_ok l cs s o :
  nth_error (heap s) l = Some o ->
  to_tensor l cs s =
  (Ok (List.length (heap s)), mkSt (heap s ++ [tag_obj o cs])%list (calls s)).
Proof.
  intro N. unfold to_tensor. rewrite (bind_ok _ _ _ _ _ (load_spec l s o N)). reflexivity.
Qed.

Lemma cvt_tag_ok l c cs s o :
  nth_error (heap s) l = Some o -> cv_accepts c o = true ->
  bind (cvtColor pm l c) (fun im => to_tensor im cs) s =
  (Ok (List.length (heap s ++ [cv_out pm c o])%list),
   mkSt ((heap s ++ [cv_out pm c o]) ++ [tag_obj (cv_out pm c o) cs])%list
        (calls s ++ [(c, shape o)])%list).
Proof.
  intros N A. rewrite (bind_ok _ _ _ _ _ (cvtColor_ok l c s o N A)).
  apply to_tensor_ok. apply nth_error_snoc.
Qed.

Lemma direct_ok g valid msg c cs l s o :
  direct_form pm g valid msg c cs ->
  nth_error (heap s) l = Some o -> valid o = true -> cv_accepts c o = true ->
  g l s =
  (Ok (List.length (heap s ++ [cv_out pm c o])%list),
   mkSt ((heap s ++ [cv_out pm c o]) ++ [tag_obj (cv_out pm c o) cs])%list
        (calls s ++ [(c, shape o)])%list).
Proof.
  intros Hg N V A. rewrite Hg, (bind_ok _ _ _ _ _ (load_spec l s o N)), V.
  exact (cvt_tag_ok l c cs s o N A).
Qed.

Lemma direct_fail g valid msg c cs l s o :
  direct_form pm g valid msg c cs ->
  nth_error (heap s) l = Some o -> valid o = true -> cv_accepts c o = false ->
  g l s = (Err (CvError "cvtColor: unsupported input"),
           mkSt (heap s) (calls s ++ [(c, shape o)])%list).
Proof.
  intros Hg N V A. rewrite Hg, (bind_ok _ _ _ _ _ (load_spec l s o N)), V.
  exact (bind_err _ _ _ _ _ (cvtColor_fail l c s o N A)).
Qed.

Lemma cv_accepts_hsl c o :
  c <> BGR2GRAY ->
  cv_accepts c o = true <->
  fold_right Nat.mul 1 (shape o) <> 0 /\ (dtype o = "uint8" \/ dtype o = "float32").
Proof.
  intro G. unfold cv_accepts, depth_ok.
  destruct c; try congruence;
    rewrite Bool.andb_true_iff, Bool.negb_true_iff, Nat.eqb_neq, Bool.orb_true_iff,
      !String.eqb_eq; tauto.
Qed.

Lemma cv_accepts_any c o :
  fold_right Nat.mul 1 (shape o) <> 0 -> (dtype o = "uint8" \/ dtype o = "float32") ->
  cv_accepts c o = true.
Proof.
  intros P D. unfold cv_accepts, depth_ok.
  rewrite (proj2 (Nat.eqb_neq _ _) P). destruct c; destruct D as [-> | ->]; reflexivity.
Qed.

End Closed.

Lemma chained_ok pm (g inner : loc -> M loc) valid msg imsg c1 c2 cs l s o :
  direct_form pm inner valid imsg c1 "bgr" ->
  (forall l, g l = bind (load l) (fun o =>
     if negb (valid o) then raise (ValueError (msg (List.length (shape o))))
     else bind (inner l) (fun bgr =>
            bind (bind (cvtColor pm bgr c2) (fun im => to_tensor im cs))
                 (fun im => to_tensor im cs)))) ->
  nth_error (heap s) l = Some o -> valid o = true -> cv_accepts c1 o = true ->
  cv_accepts c2 (tag_obj (cv_out pm c1 o) "bgr") = true ->
  exists r st, g l s = (Ok r, st) /\
    calls st = (calls s ++ [(c1, shape o); (c2, out_shape c1 (shape o))])%list /\
    List.length (heap st) = List.length (heap s) + 5.
Proof.
  intros Hi Hg N V A1 A2. rewrite Hg, (bind_ok _ _ _ _ _ (load_spec l s o N)), V.
  cbv beta iota delta [negb].
  rewrite (bind_ok _ _ _ _ _ (direct_ok pm inner valid imsg c1 "bgr" l s o Hi N V A1)).
  erewrite bind_ok; [| eapply cvt_tag_ok; [apply nth_error_snoc | exact A2]].
  erewrite to_tensor_ok; [| apply nth_error_snoc].
  eexists _, _. split; [reflexivity|]. simpl. split.
  - rewrite <- !app_assoc. reflexivity.
  - rewrite !length_app. simpl. lia.
Qed.

Lemma run_ok_closed pm f l s o :
  nth_error (heap s) l = Some o -> validator f o = true ->
  fold_right Nat.mul 1 (shape o) <> 0 -> (dtype o = "uint8" \/ dtype o = "float32") ->
  exists r st, run pm f l s = (Ok r, st) /\
    calls st = (calls s ++ trace_chain (pipeline f) (shape o))%list /\
    List.length (heap st) = List.length (heap s) + 3 * List.length (pipeline f) - 1.
Proof.
  intros N V P D.
  destruct (valid_shape (validator f) o (validator_cases f) V) as (h & w & Hs).
  assert (A2 : forall c1 c2, c1 <> BGR2GRAY ->
             cv_accepts c2 (tag_obj (cv_out pm c1 o) "bgr") = true).
  { intros c1 c2 G. apply cv_accepts_any; [|exact D].
    unfold tag_obj, cv_out, out_shape. simpl. rewrite Hs in P |- *. simpl in *.
    destruct c1; simpl; solve [exact P | congruence]. }
  assert (A1 : forall c, cv_accepts c o = true) by (intro; apply cv_accepts_any; assumption).
  destruct f; simpl in V.
  1, 2, 6, 7:
    match goal with |- context [run _ ?f _ _] =>
      eexists _, _; split;
      [ apply (direct_ok pm (run pm f) (validator f) (shape_msg f)
                 (hd HLS2RGB (pipeline f)) (dest f) l s o);
        [intro; reflexivity | exact N | exact V | apply A1]
      | simpl; rewrite !length_app; simpl; split; [reflexivity | lia] ]
    end.
  all: match goal with |- context [run _ ?f _ _] =>
    let inner := match eval simpl in (validator f) with
                 | _is_hls_image => constr:(Hls2bgr) | _ => constr:(Hsv2bgr) end in
    edestruct (chained_ok pm (run pm f) (run pm inner) (validator f) (shape_msg f)
                 (shape_msg inner) (hd HLS2RGB (pipeline inner))
                 (nth 1 (pipeline f) BGR2GRAY) (dest f) l s o)
      as (r & st & E & C & L);
      [ intro; reflexivity | intro; reflexivity | exact N | exact V | apply A1
      | apply A2; discriminate
      | exists r, st; (split; [exact E|]);
        (split; [rewrite C; reflexivity | rewrite L; simpl; lia]) ]
    end.
Qed.

Lemma conv_obj_ok pm f o o' :
  conv_obj pm f o = Ok o' ->
  validator f o = true /\ cv_accepts (hd HLS2RGB (pipeline f)) o = true /\
  o' = mkObj (shape_chain (pipeline f) (shape o))
             (math_chain pm (pipeline f) (shape o) (pixels o)) (dtype o) (Some (dest f)).
Proof.
  destruct f; unfold conv_obj, chained_obj, direct_obj, cv_obj; simpl;
    destruct (_ o) eqn:V; try discriminate;
    destruct (cv_accepts _ o) eqn:A; simpl; try discriminate;
    try (intro H; inversion H; auto; fail);
    destruct (cv_accepts _ (tag_obj _ "bgr")); simpl; try discriminate;
    intro H; inversion H; auto.
Qed.

Lemma conv_obj_invalid pm f o :
  validator f o = false -> conv_obj pm f o = Err (ValueError (shape_msg f (List.length (shape o)))).
Proof. intro V. destruct f; simpl in V; unfold conv_obj, chained_obj, direct_obj; rewrite V; reflexivity. Qed.

Lemma run_invalid pm f l s o :
  nth_error (heap s) l = Some o -> validator f o = false ->
  run pm f l s = (Err (ValueError (shape_msg f (List.length (shape o)))), s).
Proof.
  intros N V. destruct f; simpl in V; simpl run;
    unfold hls2rgb, hls2bgr, hls2gray, hls2hsv, hls2lab,
           hsv2rgb, hsv2bgr, hsv2gray, hsv2hls, hsv2lab;
    rewrite (bind_ok _ _ _ _ _ (load_spec l s o N)), V; reflexivity.
Qed.

Lemma run_ok_inv pm f l s o r s' :
  nth_error (heap s) l = Some o -> run pm f l s = (Ok r, s') ->
  validator f o = true /\ cv_accepts (hd HLS2RGB (pipeline f)) o = true /\
  nth_error (heap s') r = Some (mkObj (shape_chain (pipeline f) (shape o))
             (math_chain pm (pipeline f) (shape o) (pixels o)) (dtype o) (Some (dest f))).
Proof.
  intros N R. assert (E := run_observe pm f l s). rewrite N, R in E. simpl in E.
  destruct (conv_obj pm f o) as [o'|e] eqn:C; simpl in E; inversion E.
  destruct (conv_obj_ok pm f o o' C) as (V & A & ->). auto.
Qed.

Lemma pipeline_head f : hd HLS2RGB (pipeline f) <> BGR2GRAY.
Proof. destruct f; discriminate. Qed.

Lemma chained_fail pm (g inner : loc -> M loc) valid msg imsg c1 c2 cs l s o :
  direct_form pm inner valid imsg c1 "bgr" ->
  (forall l, g l = bind (load l) (fun o =>
     if negb (valid o) then raise (ValueError (msg (List.length (shape o))))
     else bind (inner l) (fun bgr =>
            bind (bind (cvtColor pm bgr c2) (fun im => to_tensor im cs))
                 (fun im => to_tensor im cs)))) ->
  nth_error (heap s) l = Some o -> valid o = true -> cv_accepts c1 o = false ->
  g l s = (Err (CvError "cvtColor: unsupported input"),
           mkSt (heap s) (calls s ++ [(c1, shape o)])%list).
Proof.
  intros Hi Hg N V A1. rewrite Hg, (bind_ok _ _ _ _ _ (load_spec l s o N)), V.
  cbv beta iota delta [negb].
  exact (bind_err _ _ _ _ _ (direct_fail pm inner valid imsg c1 "bgr" l s o Hi N V A1)).
Qed.

Lemma run_first_fail pm f l s o :
  nth_error (heap s) l = Some o -> validator f o = true ->
  cv_accepts (hd HLS2RGB (pipeline f)) o = false ->
  run pm f l s = (Err (CvError "cvtColor: unsupported input"),
                  mkSt (heap s) (calls s ++ [(hd HLS2RGB (pipeline f), shape o)])%list).
Proof.
  intros N V A. destruct f; simpl in V.
  1, 2, 6, 7:
    match goal with |- context [run _ ?f _ _] =>
      exact (direct_fail pm (run pm f) (validator f) (shape_msg f)
               (hd HLS2RGB (pipeline f)) (dest f) l s o (fun l => eq_refl) N V A)
    end.
  all: match goal with |- context [run _ ?f _ _] =>
    let inner := match eval simpl in (validator f) with
                 | _is_hls_image => constr:(Hls2bgr) | _ => constr:(Hsv2bgr) end in
    exact (chained_fail pm (run pm f) (run pm inner) (validator f) (shape_msg f)
             (shape_msg inner) (hd HLS2RGB (pipeline inner))
             (nth 1 (pipeline f) BGR2GRAY) (dest f) l s o
             (fun l => eq_refl) (fun l => eq_refl) N V A)
    end.
Qed.

Lemma conv_obj_label pm f sh px dt cs1 cs2 :
  conv_obj pm f (mkObj sh px dt cs1) = conv_obj pm f (mkObj sh px dt cs2).
Proof. destruct f; reflexivity. Qed.

Lemma run_ok_shape pm f l s o r s' :
  nth_error (heap s) l = Some o -> run pm f l s = (Ok r, s') ->
  exists h w, shape o = [h; w; 3] /\ h <> 0 /\ w <> 0 /\
              (dtype o = "uint8" \/ dtype o = "float32").
Proof.
  intros N R. destruct (run_ok_inv pm f l s o r s' N R) as (V & A & _).
  destruct (valid_shape (validator f) o (validator_cases f) V) as (h & w & Hs).
  apply (cv_accepts_hsl _ _ (pipeline_head f)) in A as [P D].
  rewrite Hs in P. simpl in P. exists h, w. repeat split; auto; intro; subst; lia.
Qed.

Lemma run_ok_intro pm f l s o h w :
  nth_error (heap s) l = Some o -> shape o = [h; w; 3] -> h <> 0 -> w <> 0 ->
  (dtype o = "uint8" \/ dtype o = "float32") ->
  exists r s', run pm f l s = (Ok r, s').
Proof.
  intros N Hs H0 W0 D.
  assert (V : validator f o = true)
    by (apply validator_shape; rewrite Hs; reflexivity).
  assert (P : fold_right Nat.mul 1 (shape o) <> 0)
    by (rewrite Hs; simpl; nia).
  destruct (run_ok_closed pm f l s o N V P D) as (r & st & R & _). eauto.
Qed.

(** ** Properties of the converters beyond the claims *)


(** X2 (when a call returns).  A conversion returns exactly when the input
    has shape (h, w, 3) with h and w non-zero and a dtype accepted by
    [cvtColor] (uint8 or float32); the second hop of a chain never adds a
    condition. *)
Theorem run_succeeds_iff pm f l s o :
  nth_error (heap s) l = Some o ->
  (exists r s', run pm f l s = (Ok r, s')) <->
  (exists h w, shape o = [h; w; 3] /\ h <> 0 /\ w <> 0 /\
               (dtype o = "uint8" \/ dtype o = "float32")).
Proof.
  intro N. split.
  - intros (r & s' & R). exact (run_ok_shape pm f l s o r s' N R).
  - intros (h & w & Hs & H0 & W0 & D). exact (run_ok_intro pm f l s o h w N Hs H0 W0 D).
Qed.

(** X3 (native calls on success).  A successful call makes one [cvtColor]
    call per hop of [pipeline f], in order, on the input shape and then on
    the shape produced by the previous hop. *)
Theorem run_native_calls pm f l s o r s' :
  nth_error (heap s) l = Some o -> run pm f l s = (Ok r, s') ->
  calls s' = (calls s ++ trace_chain (pipeline f) (shape o))%list.
Proof.
  intros N R. destruct (run_ok_inv pm f l s o r s' N R) as (V & A & _).
  apply (cv_accepts_hsl _ _ (pipeline_head f)) in A as [P D].
  destruct (run_ok_closed pm f l s o N V P D) as (r0 & st & R0 & C & _).
  rewrite R in R0. inversion R0; subst. exact C.
Qed.


(** X5 (rejected by the native primitive).  When the input passes the shape
    check but the first [cvtColor] rejects it, the call fails with the
    native error after exactly that one native call, and allocates
    nothing; the second hop of a chain is never reached. *)
Theorem first_hop_failure pm f l s o :
  nth_error (heap s) l = Some o -> validator f o = true ->
  cv_accepts (hd HLS2RGB (pipeline f)) o = false ->
  run pm f l s = (Err (CvError "cvtColor: unsupported input"),
                  mkSt (heap s) (calls s ++ [(hd HLS2RGB (pipeline f), shape o)])%list).
Proof. exact (run_first_fail pm f l s o). Qed.

(** X6 (every failure).  A failing call is one of: a dangling reference
    ([NameError], state unchanged); a shape rejected by the module check
    ([ValueError] with the function's message, state unchanged); or the
    first native call rejecting the input (one call logged, heap
    unchanged).  No failure happens at the second hop of a chain. *)
Theorem run_error_cases pm f l s e s' :
  run pm f l s = (Err e, s') ->
  (nth_error (heap s) l = None /\ e = NameError /\ s' = s) \/
  (exists o, nth_error (heap s) l = Some o /\ validator f o = false /\
     e = ValueError (shape_msg f (List.length (shape o))) /\ s' = s) \/
  (exists o, nth_error (heap s) l = Some o /\ validator f o = true /\
     cv_accepts (hd HLS2RGB (pipeline f)) o = false /\
     e = CvError "cvtColor: unsupported input" /\
     s' = mkSt (heap s) (calls s ++ [(hd HLS2RGB (pipeline f), shape o)])%list).
Proof.
  intro R. destruct (nth_error (heap s) l) as [o|] eqn:N.
  - right. destruct (validator f o) eqn:V.
    + right. exists o. destruct (cv_accepts (hd HLS2RGB (pipeline f)) o) eqn:A.
      * exfalso. apply (cv_accepts_hsl _ _ (pipeline_head f)) in A as [P D].
        destruct (run_ok_closed pm f l s o N V P D) as (r0 & st & R0 & _).
        congruence.
      * rewrite (run_first_fail pm f l s o N V A) in R. inversion R; subst. auto.
    + left. exists o. rewrite (run_invalid pm f l s o N V) in R. inversion R; subst. auto.
  - left. rewrite (run_dangling pm f l s N) in R. inversion R; subst. auto.
Qed.

(** X7 (input label ignored).  The colour-space label of the input is never
    consulted: inputs with the same shape, pixels and dtype give the same
    outcome, whatever space they are tagged with. *)
Theorem input_label_ignored pm f l1 s1 o1 l2 s2 o2 :
  nth_error (heap s1) l1 = Some o1 -> nth_error (heap s2) l2 = Some o2 ->
  shape o1 = shape o2 -> pixels o1 = pixels o2 -> dtype o1 = dtype o2 ->
  observe (run pm f l1 s1) = observe (run pm f l2 s2).
Proof.
  intros N1 N2 S P D. rewrite !run_observe, N1, N2.
  destruct o1 as [sh px dt c1], o2 as [sh' px' dt' c2]; simpl in S, P, D; subst.
  rewrite (conv_obj_label pm f sh' px' dt' c1 c2). reflexivity.
Qed.

(** X8 (feeding an output to another converter).  The result of a
    successful non-gray conversion passes every converter of the two
    modules; a grayscale result is 2-D and every converter rejects it with
    the message "Found shape 2". *)
Theorem outputs_compose pm f g l s o r s' :
  nth_error (heap s) l = Some o -> run pm f l s = (Ok r, s') ->
  (dest f <> "gray" -> exists r2 s2, run pm g r s' = (Ok r2, s2)) /\
  (dest f = "gray" -> run pm g r s' = (Err (ValueError (shape_msg g 2)), s')).
Proof.
  intros N R.
  destruct (run_ok_shape pm f l s o r s' N R) as (h & w & Hs & H0 & W0 & D).
  pose proof (proj2 (proj2 (run_ok_inv pm f l s o r s' N R))) as N'.
  rewrite Hs in N'. split.
  - intro G. apply (run_ok_intro pm g r s' _ h w N'); [| exact H0 | exact W0 | exact D].
    destruct f; simpl in G |- *; unfold out_shape; simpl; congruence.
  - intro G. rewrite (run_invalid pm g r s' _ N').
    + destruct f; simpl in G |- *; congruence.
    + destruct f; simpl in G; try discriminate;
        destruct (validator_cases g) as [E|E]; rewrite E; reflexivity.
Qed.


Lemma run_succeeds_iff_witness :
  nth_error (heap (st_hls [2; 5; 3] "float32")) 0 = Some (img_hls [2; 5; 3] "float32") /\
  exists r s', run id_math Hsv2lab 0 (st_hls [2; 5; 3] "float32") = (Ok r, s').
Proof.
  split; [reflexivity|].
  apply (proj2 (run_succeeds_iff id_math Hsv2lab 0 (st_hls [2; 5; 3] "float32")
                  (img_hls [2; 5; 3] "float32") eq_refl)).
  exists 2, 5. repeat split; [discriminate | discriminate | right; reflexivity].
Defined.

Lemma run_native_calls_witness :
  run id_math Hsv2hls 0 (st_hls [2; 2; 3] "uint8") =
    (Ok 5, snd (run id_math Hsv2hls 0 (st_hls [2; 2; 3] "uint8"))) /\
  calls (snd (run id_math Hsv2hls 0 (st_hls [2; 2; 3] "uint8"))) =
  [(HSV2BGR, [2; 2; 3]); (BGR2HLS, [2; 2; 3])].
Proof.
  split; [vm_compute; reflexivity|].
  apply (run_native_calls id_math Hsv2hls 0 (st_hls [2; 2; 3] "uint8")
           (img_hls [2; 2; 3] "uint8") 5); vm_compute; reflexivity.
Defined.


Lemma first_hop_failure_witness :
  validator Hls2gray (img_hls [2; 2; 3] "float64") = true /\
  cv_accepts HLS2BGR (img_hls [2; 2; 3] "float64") = false /\
  run id_math Hls2gray 0 (st_hls [2; 2; 3] "float64") =
  (Err (CvError "cvtColor: unsupported input"),
   mkSt [img_hls [2; 2; 3] "float64"] [(HLS2BGR, [2; 2; 3])]).
Proof.
  split; [reflexivity|]. split; [reflexivity|].
  apply (first_hop_failure id_math Hls2gray 0 (st_hls [2; 2; 3] "float64")
           (img_hls [2; 2; 3] "float64")); reflexivity.
Defined.

Lemma run_error_cases_witness :
  run id_math Hsv2rgb 0 (st_hls [0; 4; 3] "uint8") =
    (Err (CvError "cvtColor: unsupported input"),
     mkSt [img_hls [0; 4; 3] "uint8"] [(HSV2RGB, [0; 4; 3])]) /\
  exists o, nth_error (heap (st_hls [0; 4; 3] "uint8")) 0 = Some o /\
    validator Hsv2rgb o = true /\ cv_accepts HSV2RGB o = false.
Proof.
  assert (R : run id_math Hsv2rgb 0 (st_hls [0; 4; 3] "uint8") =
    (Err (CvError "cvtColor: unsupported input"),
     mkSt [img_hls [0; 4; 3] "uint8"] [(HSV2RGB, [0; 4; 3])])) by (vm_compute; reflexivity).
  split; [exact R|].
  destruct (run_error_cases id_math Hsv2rgb 0 (st_hls [0; 4; 3] "uint8") _ _ R)
    as [(N & _)|[(o & N & V & _)|(o & N & V & A & _)]].
  - discriminate N.
  - simpl in N. inversion N; subst. discriminate V.
  - exists o. auto.
Defined.

Lemma input_label_ignored_witness :
  observe (run id_math Hls2lab 0 (st_hls [2; 2; 3] "uint8")) =
  observe (run id_math Hls2lab 0 (st1 (mkObj [2; 2; 3] (repeat 0%Z 12) "uint8" (Some "rgb")))).
Proof.
  apply (input_label_ignored id_math Hls2lab 0 _ (img_hls [2; 2; 3] "uint8") 0 _
           (mkObj [2; 2; 3] (repeat 0%Z 12) "uint8" (Some "rgb"))); reflexivity.
Defined.

Lemma outputs_compose_witness :
  run id_math Hsv2gray 0 (st_hls [2; 2; 3] "uint8") =
    (Ok 5, snd (run id_math Hsv2gray 0 (st_hls [2; 2; 3] "uint8"))) /\
  run id_math Hls2rgb 5 (snd (run id_math Hsv2gray 0 (st_hls [2; 2; 3] "uint8"))) =
  (Err (ValueError (shape_msg Hls2rgb 2)),
   snd (run id_math Hsv2gray 0 (st_hls [2; 2; 3] "uint8"))).
Proof.
  split; [vm_compute; reflexivity|].
  apply (proj2 (outputs_compose id_math Hsv2gray Hls2rgb 0 (st_hls [2; 2; 3] "uint8")
                  (img_hls [2; 2; 3] "uint8") 5 _ eq_refl
                  ltac:(vm_compute; reflexivity)) eq_refl).
Defined.
